(** * bettertrack: accounts, holdings and net worth

    A shallow embedding of the domain model of [bettertrack]
    ([core/assets.py], [core/debts.py], [core/accounts/], [config/portfolio.py],
    [calc/networth.py]).

    Modelling choices:
    - Python [float] values are modelled as exact rationals [Q]; a Python
      division by zero ([ZeroDivisionError]) is an explicit error.
    - Exceptions are the [Err] branch of [result]; a mutating method returns
      its outcome together with the object state it leaves behind, so the
      state after a raised exception is visible.
    - A Python [dict] keyed by ticker is an association list in insertion
      order; assignment to an existing key updates it in place, a new key is
      appended.
    - The external quote service [price.get_current_price] is an injected
      lookup [ticker -> result Q]. *)

From Stdlib Require Import QArith String List Bool Arith Lia.
Import ListNotations.
Open Scope Q_scope.

(** ** Errors and results *)

Inductive error :=
| OutOfCashError          (* bettertrack.exceptions.OutOfCashError *)
| NotImplementedError     (* unsupported configuration *)
| TypeError
| ZeroDivisionError
| ValidationError         (* pydantic validation error *)
| ValueError              (* price lookup: missing key, bad ticker, no data *)
| RuntimeError.           (* price lookup: rate limit, transport failure *)

Inductive result (A : Type) :=
| Ok : A -> result A
| Err : error -> result A.
Arguments Ok {A} _.
Arguments Err {A} _.

Definition bind {A B} (r : result A) (f : A -> result B) : result B :=
  match r with
  | Ok a => f a
  | Err e => Err e
  end.

Notation "'let!' x := r 'in' k" := (bind r (fun x => k))
  (at level 200, x name, r at level 100, k at level 200).

Fixpoint map_result {A B} (f : A -> result B) (l : list A) : result (list B) :=
  match l with
  | [] => Ok []
  | x :: xs => let! y := f x in let! ys := map_result f xs in Ok (y :: ys)
  end.

(** Python comparison [a > b] on floats. *)
Definition gtb (a b : Q) : bool := negb (Qle_bool a b).

(** Python truthiness of a float: [not x] holds exactly for zero. *)
Definition is_zero (x : Q) : bool := Qeq_bool x 0.

(** ** core/assets.py *)

Inductive AssetType :=
| STOCKS | BONDS | MONEY_MARKET | CD | CASH | REAL_ESTATE | CRYPTO | COMMODITY.

Record Asset := mkAsset {
  type_ : AssetType;
  name : string;
  ticker : string;
  shares : Q;
  cost_basis : option Q;
  yield_ : option Q;
  expense_ratio : Q
}.

Definition set_shares_cost (a : Asset) (s : Q) (c : option Q) : Asset :=
  mkAsset (type_ a) (name a) (ticker a) s c (yield_ a) (expense_ratio a).

(** [float * None] raises [TypeError]. *)
Definition mul_opt (x : Q) (y : option Q) : result Q :=
  match y with
  | Some v => Ok (x * v)
  | None => Err TypeError
  end.

(** [Asset.__add__]. *)
Definition asset_add (self other : Asset) : result Asset :=
  if negb (String.eqb (ticker self) (ticker other)) then Err TypeError
  else if is_zero (shares self) then Ok other
  else
    let holding := self in
    let total_shares := shares holding + shares other in
    let! l := mul_opt (shares holding) (cost_basis holding) in
    let! r := mul_opt (shares other) (cost_basis other) in
    if is_zero total_shares then Err ZeroDivisionError
    else
      let new_cost_basis := (l + r) / total_shares in
      Ok (set_shares_cost holding total_shares (Some new_cost_basis)).

(** [Asset.__eq__]: assets compare by ticker only. *)
Definition asset_eq (self other : Asset) : bool := String.eqb (ticker self) (ticker other).

(** ** core/debts.py *)

Inductive LiabilityType := AUTO | HOUSE | EDUCATION | CREDIT_CARD_DEBT | PERSONAL.

Record Liability := mkLiability {
  l_type_ : LiabilityType;
  l_name : string;
  apr : Q;
  og_principal : Q;
  tenure : Z
}.

(** ** core/accounts/_base.py *)

Inductive AccountType := BANK | CREDIT_UNION | BROKERAGE | CREDIT_CARD.

(** A [dict[str, Asset]] in insertion order. *)
Definition Holdings := list (string * Asset).

Fixpoint dict_get (k : string) (d : Holdings) : option Asset :=
  match d with
  | [] => None
  | (k', v) :: rest => if String.eqb k k' then Some v else dict_get k rest
  end.

(** [d[k] = v]: an existing key keeps its position, a new key goes last. *)
Fixpoint dict_set (k : string) (v : Asset) (d : Holdings) : Holdings :=
  match d with
  | [] => [(k, v)]
  | (k', v') :: rest =>
      if String.eqb k k' then (k', v) :: rest else (k', v') :: dict_set k v rest
  end.

(** ** core/accounts/_asset.py *)

Record AssetAccount := mkAssetAccount {
  aa_institution : string;
  aa_acc_type : AccountType;
  aa_holdings : Holdings;   (* self._holdings *)
  aa_cash_amt : Q;          (* self._cash_amt *)
  aa_total_amt : Q          (* self._total_amt *)
}.

(** [AssetAccount.__init__]: the base class stores [acc_holdings], which the
    subclass then overwrites with an empty dict. *)
Definition AssetAccount_init (institution : string) (acc_type : AccountType)
  : AssetAccount :=
  mkAssetAccount institution acc_type [] 0 0.

Definition with_holdings_cash (acc : AssetAccount) (h : Holdings) (c : Q) :=
  mkAssetAccount (aa_institution acc) (aa_acc_type acc) h c (aa_total_amt acc).

Definition with_total (acc : AssetAccount) (t : Q) :=
  mkAssetAccount (aa_institution acc) (aa_acc_type acc) (aa_holdings acc)
    (aa_cash_amt acc) t.

(** The injected quote lookup [get_current_price]. *)
Definition PriceLookup := string -> result Q.

(** [AssetAccount.transfer_in]. *)
Definition transfer_in (amt : Q) (acc : AssetAccount) : Q * AssetAccount :=
  let c := aa_cash_amt acc + amt in
  (c, with_holdings_cash acc (aa_holdings acc) c).


(** [AssetAccount.buy]: returns the outcome and the account afterwards. *)
Definition buy (get_current_price : PriceLookup) (amt : Q) (holding : Asset)
  (acc : AssetAccount) : result Q * AssetAccount :=
  if gtb amt (aa_cash_amt acc) then (Err OutOfCashError, acc)
  else
    match get_current_price (ticker holding) with
    | Err e => (Err e, acc)
    | Ok p =>
        if is_zero p then (Err ZeroDivisionError, acc)
        else
          let holding := set_shares_cost holding (amt / p) (Some p) in
          let k := ticker holding in
          let updated :=
            match dict_get k (aa_holdings acc) with
            | Some cur =>
                let! m := asset_add cur holding in Ok (dict_set k m (aa_holdings acc))
            | None => Ok (dict_set k holding (aa_holdings acc))  (* except KeyError *)
            end in
          match updated with
          | Err e => (Err e, acc)
          | Ok hs =>
              let c := aa_cash_amt acc - amt in
              (Ok c, with_holdings_cash acc hs c)
          end
    end.

(** The loop of [AssetAccount.reconcile]: [total += shares * price]. *)
Fixpoint sum_holdings (get_current_price : PriceLookup) (total : Q) (hs : Holdings)
  : result Q :=
  match hs with
  | [] => Ok total
  | (_, holding) :: rest =>
      let! current_price := get_current_price (ticker holding) in
      let market_value := shares holding * current_price in
      sum_holdings get_current_price (total + market_value) rest
  end.

(** [AssetAccount.reconcile]. *)
Definition AssetAccount_reconcile (get_current_price : PriceLookup)
  (acc : AssetAccount) : result Q * AssetAccount :=
  match sum_holdings get_current_price (aa_cash_amt acc) (aa_holdings acc) with
  | Ok total => (Ok total, with_total acc total)
  | Err e => (Err e, acc)
  end.

(** ** core/accounts/_debt.py *)

Record DebtAccount := mkDebtAccount {
  da_institution : string;
  da_acc_type : AccountType;
  da_holdings : option (list Liability);
  da_total_amt : Q
}.

(** [DebtAccount.__init__]: [if acc_holdings and len(acc_holdings) > 1]. *)
Definition DebtAccount_init (institution : string) (acc_type : AccountType)
  (acc_holdings : option (list Liability)) : result DebtAccount :=
  match acc_holdings with
  | Some l =>
      if Nat.ltb 1 (length l) then Err NotImplementedError
      else Ok (mkDebtAccount institution acc_type acc_holdings 0)
  | None => Ok (mkDebtAccount institution acc_type acc_holdings 0)
  end.

(** [DebtAccount.reconcile]. *)
Definition DebtAccount_reconcile (acc : DebtAccount) : result Q * DebtAccount :=
  let total :=
    match da_holdings acc with
    | Some l => fold_left (fun t liability => t + og_principal liability) l 0
    | None => 0
    end in
  (Ok total,
   mkDebtAccount (da_institution acc) (da_acc_type acc) (da_holdings acc) total).

(** The two account classes the program instantiates. *)
Inductive Account :=
| AAsset : AssetAccount -> Account
| ADebt : DebtAccount -> Account.

Definition total_amount (a : Account) : Q :=
  match a with
  | AAsset x => aa_total_amt x
  | ADebt d => da_total_amt d
  end.

Definition reconcile (get_current_price : PriceLookup) (a : Account)
  : result Q * Account :=
  match a with
  | AAsset x => let (r, x') := AssetAccount_reconcile get_current_price x in (r, AAsset x')
  | ADebt d => let (r, d') := DebtAccount_reconcile d in (r, ADebt d')
  end.

(** ** config/portfolio.py *)

Record AssetConfig := mkAssetConfig {
  ac_type_ : AssetType;
  ac_name : string;
  ac_ticker : string;
  ac_shares : Q;
  ac_cost_basis : option Q;
  ac_yield_ : option Q;
  ac_expense_ratio : Q
}.

(** [AssetConfig.to_asset]. *)
Definition to_asset (c : AssetConfig) : Asset :=
  mkAsset (ac_type_ c) (ac_name c) (ac_ticker c) (ac_shares c) (ac_cost_basis c)
    (ac_yield_ c) (ac_expense_ratio c).

Record DebtConfig := mkDebtConfig {
  dc_type_ : LiabilityType;
  dc_name : string;
  dc_apr : Q;
  dc_og_principal : Q;
  dc_tenure : Z
}.

(** [DebtConfig.to_liability]. *)
Definition to_liability (c : DebtConfig) : Liability :=
  mkLiability (dc_type_ c) (dc_name c) (dc_apr c) (dc_og_principal c) (dc_tenure c).

(** An element of [list[AssetConfig | DebtConfig]]. *)
Inductive HoldingConfig :=
| HAsset : AssetConfig -> HoldingConfig
| HDebt : DebtConfig -> HoldingConfig.

Definition is_debt_config (h : HoldingConfig) : bool :=
  match h with HDebt _ => true | HAsset _ => false end.

Definition is_asset_config (h : HoldingConfig) : bool :=
  match h with HAsset _ => true | HDebt _ => false end.

Record AccountConfig := mkAccountConfig {
  institution : string;
  acc_type : AccountType;
  acc_holdings : option (list HoldingConfig);
  cash : Q
}.

(** [self.acc_holdings and any(isinstance(h, ...) for h in self.acc_holdings)] *)
Definition any_holding (p : HoldingConfig -> bool) (hs : option (list HoldingConfig)) :=
  match hs with
  | Some l => existsb p l
  | None => false
  end.

Fixpoint debt_holdings (l : list HoldingConfig) : list Liability :=
  match l with
  | [] => []
  | HDebt d :: rest => to_liability d :: debt_holdings rest
  | HAsset _ :: rest => debt_holdings rest
  end.

(** The loop [acc._holdings[asset.ticker] = asset] over the asset entries. *)
Fixpoint add_asset_holdings (l : list HoldingConfig) (h : Holdings) : Holdings :=
  match l with
  | [] => h
  | HAsset a :: rest =>
      let asset := to_asset a in add_asset_holdings rest (dict_set (ticker asset) asset h)
  | HDebt _ :: rest => add_asset_holdings rest h
  end.

(** [AccountConfig.to_account]. *)
Definition to_account (self : AccountConfig) : result Account :=
  let has_debts := any_holding is_debt_config (acc_holdings self) in
  let has_assets := any_holding is_asset_config (acc_holdings self) in
  if has_debts then
    let l := match acc_holdings self with Some l => l | None => [] end in
    let! d := DebtAccount_init (institution self) (acc_type self)
                (Some (debt_holdings l)) in
    Ok (ADebt d)
  else
    let acc := AssetAccount_init (institution self) (acc_type self) in
    let acc := if gtb (cash self) 0 then snd (transfer_in (cash self) acc) else acc in
    let acc :=
      if has_assets then
        let l := match acc_holdings self with Some l => l | None => [] end in
        with_holdings_cash acc (add_asset_holdings l (aa_holdings acc)) (aa_cash_amt acc)
      else acc in
    Ok (AAsset acc).

(** *** pydantic validation of the configuration models

    The models declare their numeric fields as plain [float] / [int] with no
    constraint; validation rejects only enum strings outside the enum. A raw
    entry carries the enum as its JSON string and the numbers as parsed. *)

Definition parse_AssetType (s : string) : option AssetType :=
  if String.eqb s "stocks" then Some STOCKS
  else if String.eqb s "bonds" then Some BONDS
  else if String.eqb s "money-market" then Some MONEY_MARKET
  else if String.eqb s "cd" then Some CD
  else if String.eqb s "cash" then Some CASH
  else if String.eqb s "real-estate" then Some REAL_ESTATE
  else if String.eqb s "crypto-currency" then Some CRYPTO
  else if String.eqb s "commodity" then Some COMMODITY
  else None.

Definition parse_LiabilityType (s : string) : option LiabilityType :=
  if String.eqb s "auto-loan" then Some AUTO
  else if String.eqb s "house-loan" then Some HOUSE
  else if String.eqb s "student-loan" then Some EDUCATION
  else if String.eqb s "credit-card-debt" then Some CREDIT_CARD_DEBT
  else if String.eqb s "personal-loan" then Some PERSONAL
  else None.

Record RawAssetConfig := mkRawAssetConfig {
  raw_type_ : string;
  raw_name : string;
  raw_ticker : string;
  raw_shares : Q;
  raw_cost_basis : option Q;
  raw_yield_ : option Q;
  raw_expense_ratio : Q
}.

Record RawDebtConfig := mkRawDebtConfig {
  rawd_type_ : string;
  rawd_name : string;
  rawd_apr : Q;
  rawd_og_principal : Q;
  rawd_tenure : Z
}.

Definition validate_AssetConfig (r : RawAssetConfig) : result AssetConfig :=
  match parse_AssetType (raw_type_ r) with
  | Some t =>
      Ok (mkAssetConfig t (raw_name r) (raw_ticker r) (raw_shares r)
            (raw_cost_basis r) (raw_yield_ r) (raw_expense_ratio r))
  | None => Err ValidationError
  end.

Definition validate_DebtConfig (r : RawDebtConfig) : result DebtConfig :=
  match parse_LiabilityType (rawd_type_ r) with
  | Some t =>
      Ok (mkDebtConfig t (rawd_name r) (rawd_apr r) (rawd_og_principal r)
            (rawd_tenure r))
  | None => Err ValidationError
  end.

(** ** calc/networth.py *)

(** The loop of [NetworthCalculator.calculate_networth]: returns the outcome,
    the final [self._networth] and the accounts as left behind. *)
Fixpoint calc_loop (get_current_price : PriceLookup) (networth : Q)
  (accounts : list Account) : result Q * Q * list Account :=
  match accounts with
  | [] => (Ok networth, networth, [])
  | account :: rest =>
      let (r, account) := reconcile get_current_price account in
      match r with
      | Err e => (Err e, networth, account :: rest)
      | Ok _ =>
          let networth :=
            match account with
            | AAsset _ => networth + total_amount account
            | ADebt _ => networth - total_amount account
            end in
          let '(r', nw', rest') := calc_loop get_current_price networth rest in
          (r', nw', account :: rest')
      end
  end.

(** [NetworthCalculator.calculate_networth]. *)
Definition calculate_networth (get_current_price : PriceLookup)
  (accounts : list Account) : result Q * Q * list Account :=
  calc_loop get_current_price 0 accounts.

(** [NetworthCalculator.__init__]. *)
Definition NetworthCalculator_init (accounts : list AccountConfig)
  : result (list Account) :=
  map_result to_account accounts.

(** [compute_networth], on the [accounts] of a [PortfolioConfig]. *)
Definition compute_networth (get_current_price : PriceLookup)
  (accounts : list AccountConfig) : result Q :=
  let! accs := NetworthCalculator_init accounts in
  fst (fst (calculate_networth get_current_price accs)).

(** ** Reference formulations used to state the properties *)

(** Results agree: the same error, or values equal as numbers. *)
Definition res_eqv (r1 r2 : result Q) : Prop :=
  match r1, r2 with
  | Ok x, Ok y => x == y
  | Err e1, Err e2 => e1 = e2
  | _, _ => False
  end.

Definition sum_q (l : list Q) : Q := fold_right Qplus 0 l.

(** Net worth as the spec words it: reconcile every account in portfolio
    order, then the sum of the asset accounts' totals minus the sum of the
    debt accounts' totals. *)
Fixpoint reconcile_all (get_current_price : PriceLookup) (accounts : list Account)
  : result (list Account) :=
  match accounts with
  | [] => Ok []
  | a :: rest =>
      match reconcile get_current_price a with
      | (Ok _, a') => let! rest' := reconcile_all get_current_price rest in Ok (a' :: rest')
      | (Err e, _) => Err e
      end
  end.

Fixpoint asset_totals (accounts : list Account) : list Q :=
  match accounts with
  | [] => []
  | AAsset x :: rest => aa_total_amt x :: asset_totals rest
  | ADebt _ :: rest => asset_totals rest
  end.

Fixpoint debt_totals (accounts : list Account) : list Q :=
  match accounts with
  | [] => []
  | ADebt d :: rest => da_total_amt d :: debt_totals rest
  | AAsset _ :: rest => debt_totals rest
  end.

Definition networth_spec (get_current_price : PriceLookup) (accounts : list Account)
  : result Q :=
  let! accs := reconcile_all get_current_price accounts in
  Ok (sum_q (asset_totals accs) - sum_q (debt_totals accs)).

Definition compute_networth_spec (get_current_price : PriceLookup)
  (accounts : list AccountConfig) : result Q :=
  let! accs := NetworthCalculator_init accounts in
  networth_spec get_current_price accs.

(** The two single-account portfolios of tests/test_networth.py. *)
Definition assets_only_account : AccountConfig :=
  mkAccountConfig "Bank" BANK None 50000.0.

Definition student_loan : DebtConfig :=
  mkDebtConfig EDUCATION "Student Loan" 5.0 30000.0 120.

Definition debts_only_account : AccountConfig :=
  mkAccountConfig "Lender" CREDIT_CARD (Some [HDebt student_loan]) 0.0.

(** ** Lemmas *)

Lemma calc_loop_spec (get_current_price : PriceLookup) (accs : list Account) :
  forall nw,
    res_eqv (fst (fst (calc_loop get_current_price nw accs)))
      (let! x := networth_spec get_current_price accs in Ok (nw + x))
    /\ (forall accs', reconcile_all get_current_price accs = Ok accs' ->
          snd (calc_loop get_current_price nw accs) = accs').
Proof.
  unfold networth_spec.
  induction accs as [|a rest IH]; intros nw; simpl.
  - split; [ring | intros accs' H; inversion H; reflexivity].
  - destruct (reconcile get_current_price a) as [[t|e] a'] eqn:Er.
    + set (nw' := match a' with
                  | AAsset _ => nw + total_amount a'
                  | ADebt _ => nw - total_amount a'
                  end).
      destruct (IH nw') as [IH1 IH2].
      destruct (calc_loop get_current_price nw' rest) as [[r' x] rest'] eqn:Ec.
      simpl in *.
      split.
      * destruct (reconcile_all get_current_price rest) as [accs'|e] eqn:Ea;
          simpl in *; destruct r'; simpl in *; try contradiction; [|assumption].
        rewrite IH1; subst nw'; destruct a'; simpl; ring.
      * intros accs' H.
        destruct (reconcile_all get_current_price rest) as [rs|e] eqn:Ea;
          simpl in H; [|discriminate].
        inversion H; subst. f_equal. apply IH2. reflexivity.
    + split; [reflexivity | intros accs' H; discriminate].
Qed.

(** ** Properties *)

(** C1: [compute_networth] reconciles every account in portfolio order and
    returns the sum of the asset accounts' reconciled totals minus the sum of
    the debt accounts' reconciled totals (failing exactly as the ordered
    reconciliation fails); the accounts it leaves behind are the reconciled
    ones. A portfolio of one asset account with cash 50000 and no holdings
    yields 50000.0; one debt account with one liability of principal 30000
    yields -30000.0. *)
Theorem compute_networth_sum :
  (forall (get_current_price : PriceLookup) (cfgs : list AccountConfig),
      res_eqv (compute_networth get_current_price cfgs)
              (compute_networth_spec get_current_price cfgs))
  /\ (forall (get_current_price : PriceLookup) (accs accs' : list Account),
      reconcile_all get_current_price accs = Ok accs' ->
      snd (calculate_networth get_current_price accs) = accs')
  /\ (forall get_current_price : PriceLookup,
      res_eqv (compute_networth get_current_price [assets_only_account])
              (Ok 50000.0))
  /\ (forall get_current_price : PriceLookup,
      res_eqv (compute_networth get_current_price [debts_only_account])
              (Ok (-30000.0))).
Proof.
  split; [|split; [|split]].
  - intros p cfgs. unfold compute_networth, compute_networth_spec.
    destruct (NetworthCalculator_init cfgs) as [accs|e]; simpl; [|reflexivity].
    destruct (calc_loop_spec p accs 0) as [H _].
    unfold calculate_networth.
    destruct (calc_loop p 0 accs) as [[r x] y]; simpl in *.
    destruct r, (networth_spec p accs); simpl in *; try contradiction;
      [rewrite H; ring | assumption].
  - intros p accs accs' H. apply (calc_loop_spec p accs 0). exact H.
  - intros p. reflexivity.
  - intros p. reflexivity.
Qed.

(** The market value of the holdings at a total price function [pf]. *)
Definition holdings_value (pf : string -> Q) (hs : Holdings) : Q :=
  sum_q (map (fun kv => shares (snd kv) * pf (ticker (snd kv))) hs).

Lemma sum_holdings_value (get_current_price : PriceLookup) (pf : string -> Q)
  (hs : Holdings) :
  (forall k a, In (k, a) hs -> get_current_price (ticker a) = Ok (pf (ticker a))) ->
  forall t, exists v, sum_holdings get_current_price t hs = Ok v
                 /\ v == t + holdings_value pf hs.
Proof.
  unfold holdings_value.
  induction hs as [|[k a] rest IH]; intros H t; simpl.
  - exists t. split; [reflexivity | ring].
  - rewrite (H k a (or_introl eq_refl)). simpl.
    destruct (IH (fun k' a' Hin => H k' a' (or_intror Hin))
                 (t + shares a * pf (ticker a))) as [v [Hv Heq]].
    exists v. split; [exact Hv|]. rewrite Heq. simpl. ring.
Qed.

(** The test account of tests/test_networth.py::test_asset_account_reconcile. *)
Definition test_asset_config : AssetConfig :=
  mkAssetConfig STOCKS "Test Stock" "TEST" 100.0 (Some 50.0) None 0.0.

Definition test_account_config : AccountConfig :=
  mkAccountConfig "Test Brokerage" BROKERAGE (Some [HAsset test_asset_config]) 10000.0.

Definition test_account : AssetAccount :=
  match to_account test_account_config with
  | Ok (AAsset a) => a
  | _ => AssetAccount_init "" BANK
  end.

Definition price_75 : PriceLookup := fun _ => Ok 75.0.

Lemma test_account_shape :
  to_account test_account_config = Ok (AAsset test_account)
  /\ aa_cash_amt test_account = 10000.0
  /\ aa_holdings test_account = [("TEST"%string, to_asset test_asset_config)].
Proof. split; [|split]; reflexivity. Qed.

(** C2: when the price lookup succeeds on every held ticker (at prices [pf]),
    [AssetAccount.reconcile] returns cash plus the sum over the holdings of
    shares times price, and stores that value as [total_amount]. *)
Theorem AssetAccount_reconcile_total (pf : string -> Q)
  (get_current_price : PriceLookup) (acc : AssetAccount)
  (Hprice : forall k a, In (k, a) (aa_holdings acc) ->
            get_current_price (ticker a) = Ok (pf (ticker a))) :
  exists total,
    AssetAccount_reconcile get_current_price acc = (Ok total, with_total acc total)
    /\ aa_total_amt (with_total acc total) = total
    /\ total == aa_cash_amt acc + holdings_value pf (aa_holdings acc).
Proof.
  destruct (sum_holdings_value get_current_price pf (aa_holdings acc) Hprice
              (aa_cash_amt acc)) as [v [Hv Heq]].
  exists v. unfold AssetAccount_reconcile. rewrite Hv.
  split; [reflexivity | split; [reflexivity | exact Heq]].
Qed.

Lemma AssetAccount_reconcile_total_witness :
  exists total,
    AssetAccount_reconcile price_75 test_account = (Ok total, with_total test_account total)
    /\ total == 17500.0.
Proof.
  destruct (AssetAccount_reconcile_total (fun _ => 75.0) price_75 test_account
              (fun k a _ => eq_refl)) as [t [H1 [_ H2]]].
  exists t. split; [exact H1|]. rewrite H2. vm_compute. reflexivity.
Defined.

Definition liabilities (acc : DebtAccount) : list Liability :=
  match da_holdings acc with
  | Some l => l
  | None => []
  end.

Lemma fold_principal (ls : list Liability) : forall t0,
  fold_left (fun t liability => t + og_principal liability) ls t0
  = fold_left Qplus (map og_principal ls) t0.
Proof. induction ls as [|l ls IH]; intros t0; simpl; auto. Qed.

Lemma fold_plus_sum (xs : list Q) : forall t0,
  fold_left Qplus xs t0 == t0 + sum_q xs.
Proof.
  induction xs as [|x xs IH]; intros t0; simpl; [ring|].
  rewrite IH. ring.
Qed.

Lemma DebtAccount_reconcile_fst (acc : DebtAccount) :
  fst (DebtAccount_reconcile acc)
  = Ok (fold_left Qplus (map og_principal (liabilities acc)) 0).
Proof.
  unfold DebtAccount_reconcile, liabilities.
  destruct (da_holdings acc); simpl; [rewrite fold_principal|]; reflexivity.
Qed.

(** C3: [DebtAccount.reconcile] returns the sum of the liabilities' original
    principals (0 with none) and stores it as [total_amount]; any account
    whose liabilities have the same principals, whatever their apr and
    tenure, reconciles to the very same value. *)
Theorem DebtAccount_reconcile_total (acc : DebtAccount) :
  exists total,
    DebtAccount_reconcile acc
      = (Ok total, mkDebtAccount (da_institution acc) (da_acc_type acc)
                     (da_holdings acc) total)
    /\ total == sum_q (map og_principal (liabilities acc))
    /\ (forall acc', map og_principal (liabilities acc') = map og_principal (liabilities acc) ->
          fst (DebtAccount_reconcile acc') = Ok total).
Proof.
  exists (fold_left Qplus (map og_principal (liabilities acc)) 0).
  split; [|split].
  - pose proof (DebtAccount_reconcile_fst acc) as H.
    unfold DebtAccount_reconcile in *. simpl in H. inversion H as [H1].
    rewrite H1. reflexivity.
  - rewrite fold_plus_sum. ring.
  - intros acc' H. rewrite DebtAccount_reconcile_fst, H. reflexivity.
Qed.

Lemma is_zero_pos (x : Q) : 0 < x -> is_zero x = false.
Proof.
  intros H. unfold is_zero. destruct (Qeq_bool x 0) eqn:E; [|reflexivity].
  apply Qeq_bool_iff in E. rewrite E in H. destruct (Qlt_irrefl 0 H).
Qed.

Lemma is_zero_true (x : Q) : x == 0 -> is_zero x = true.
Proof. intros H. apply Qeq_bool_iff. exact H. Qed.

Lemma is_zero_false (x : Q) : ~ x == 0 -> is_zero x = false.
Proof.
  intros H. unfold is_zero. destruct (Qeq_bool x 0) eqn:E; [|reflexivity].
  apply Qeq_bool_iff in E. contradiction.
Qed.

Lemma asset_add_errors (a b : Asset) (e : error) :
  asset_add a b = Err e -> e = TypeError \/ e = ZeroDivisionError.
Proof.
  unfold asset_add, mul_opt.
  destruct (negb (String.eqb (ticker a) (ticker b))); [intros H; inversion H; auto|].
  destruct (is_zero (shares a)); [discriminate|].
  destruct (cost_basis a), (cost_basis b); simpl; intros H; inversion H; auto.
  destruct (is_zero (shares a + shares b)); inversion H; auto.
Qed.

(** Two same-ticker assets whose share counts cancel. *)
Definition cancel_a : Asset := mkAsset STOCKS "VTI" "VTI" 1.0 (Some 100.0) None 0.0.
Definition cancel_b : Asset := mkAsset STOCKS "VTI" "VTI" (-1.0) (Some 100.0) None 0.0.

(** C4, counterexample: with equal tickers, [a.shares = 1 > 0] and both cost
    bases set, but [a.shares + b.shares = 0], merging raises
    [ZeroDivisionError] instead of yielding an asset. *)
Lemma asset_add_cancelling_shares :
  ticker cancel_a = ticker cancel_b /\ 0 < shares cancel_a
  /\ asset_add cancel_a cancel_b = Err ZeroDivisionError
  /\ ~ (exists m, asset_add cancel_a cancel_b = Ok m).
Proof.
  split; [reflexivity | split; [reflexivity | split; [reflexivity|]]].
  intros [m H]. discriminate H.
Qed.

(** C4 (amended): for same-ticker assets [a] and [b], merging yields [b]
    itself when [a.shares] is zero; when [a.shares > 0], both cost bases are
    set and [a.shares + b.shares <> 0], it yields [a] with shares
    [a.shares + b.shares] and cost basis the share-weighted average
    [(a.shares * a.cost_basis + b.shares * b.cost_basis) / (a.shares + b.shares)];
    when the share counts cancel it raises [ZeroDivisionError]. *)
Theorem asset_add_weighted (a b : Asset) (Ht : ticker a = ticker b) :
  (shares a == 0 -> asset_add a b = Ok b)
  /\ (forall ca cb, 0 < shares a -> cost_basis a = Some ca -> cost_basis b = Some cb ->
        ~ shares a + shares b == 0 ->
        asset_add a b
        = Ok (set_shares_cost a (shares a + shares b)
                (Some ((shares a * ca + shares b * cb) / (shares a + shares b)))))
  /\ (forall ca cb, 0 < shares a -> cost_basis a = Some ca -> cost_basis b = Some cb ->
        shares a + shares b == 0 -> asset_add a b = Err ZeroDivisionError).
Proof.
  unfold asset_add. rewrite Ht, String.eqb_refl. simpl.
  split; [|split].
  - intros H0. rewrite (is_zero_true _ H0). reflexivity.
  - intros ca cb Hpos Ha Hb Hnz.
    rewrite (is_zero_pos _ Hpos), Ha, Hb. simpl.
    rewrite (is_zero_false _ Hnz). reflexivity.
  - intros ca cb Hpos Ha Hb Hz.
    rewrite (is_zero_pos _ Hpos), Ha, Hb. simpl.
    rewrite (is_zero_true _ Hz). reflexivity.
Qed.

Definition vti_10_at_5 : Asset := mkAsset STOCKS "VTI" "VTI" 10.0 (Some 5.0) None 0.0.
Definition vti_10_at_15 : Asset := mkAsset STOCKS "VTI" "VTI" 10.0 (Some 15.0) None 0.0.

Lemma asset_add_weighted_witness :
  asset_add vti_10_at_5 vti_10_at_15
  = Ok (set_shares_cost vti_10_at_5 (10.0 + 10.0)
          (Some ((10.0 * 5.0 + 10.0 * 15.0) / (10.0 + 10.0)))).
Proof.
  apply (proj1 (proj2 (asset_add_weighted vti_10_at_5 vti_10_at_15 eq_refl))).
  - reflexivity.
  - reflexivity.
  - reflexivity.
  - vm_compute. discriminate.
Defined.

Lemma existsb_debt (l : list HoldingConfig) :
  debt_holdings l <> [] -> existsb is_debt_config l = true.
Proof.
  induction l as [|[a|d] rest IH]; simpl; intros H.
  - contradiction.
  - apply IH. exact H.
  - reflexivity.
Qed.

Definition car_loan : DebtConfig := mkDebtConfig AUTO "Car Loan" 4.5 25000.0 60.

(** An account entry with two debt holdings. *)
Definition two_loans_account : AccountConfig :=
  mkAccountConfig "Lender" CREDIT_CARD (Some [HDebt student_loan; HDebt car_loan]) 0.0.

(** C5, counterexample: an account entry with two debt holdings does not
    become a [DebtAccount]; [to_account] raises [NotImplementedError]. *)
Lemma to_account_two_loans :
  to_account two_loans_account = Err NotImplementedError
  /\ ~ (exists d, to_account two_loans_account = Ok (ADebt d)).
Proof.
  split; [reflexivity|]. intros [d H]. discriminate H.
Qed.

(** C5 (amended): for an account entry whose holdings contain exactly one
    debt entry, [to_account] builds the [DebtAccount] holding only that
    liability, and it builds the same account whatever the cash amount and
    the asset entries are; with two or more debt entries it raises
    [NotImplementedError]. *)
Theorem to_account_debt_entries (cfg : AccountConfig) (l : list HoldingConfig)
  (Hl : acc_holdings cfg = Some l) :
  (length (debt_holdings l) = 1%nat ->
     to_account cfg
     = Ok (ADebt (mkDebtAccount (institution cfg) (acc_type cfg)
                    (Some (debt_holdings l)) 0))
     /\ (forall (l' : list HoldingConfig) (c' : Q), debt_holdings l' = debt_holdings l ->
           to_account (mkAccountConfig (institution cfg) (acc_type cfg) (Some l') c')
           = to_account cfg))
  /\ (2 <= length (debt_holdings l) -> to_account cfg = Err NotImplementedError)%nat.
Proof.
  assert (Hne : forall l0, (1 <= length (debt_holdings l0))%nat -> debt_holdings l0 <> []).
  { intros l0 H E. rewrite E in H. simpl in H. lia. }
  unfold to_account. rewrite Hl. simpl.
  split.
  - intros H1.
    rewrite (existsb_debt l (Hne l ltac:(lia))). simpl.
    assert (Hlt : Nat.ltb 1 (length (debt_holdings l)) = false)
      by (apply Nat.ltb_ge; lia).
    rewrite Hlt. split; [reflexivity|].
    intros l' c' Hd. simpl.
    rewrite (existsb_debt l' (Hne l' ltac:(rewrite Hd; lia))). simpl.
    rewrite Hd, Hlt. reflexivity.
  - intros H2.
    rewrite (existsb_debt l (Hne l ltac:(lia))). simpl.
    assert (Hlt : Nat.ltb 1 (length (debt_holdings l)) = true)
      by (apply Nat.ltb_lt; lia).
    rewrite Hlt. reflexivity.
Qed.

(** An account entry mixing cash, an asset and one loan. *)
Definition mixed_account : AccountConfig :=
  mkAccountConfig "Bank" BANK (Some [HAsset test_asset_config; HDebt student_loan]) 2500.0.

Lemma to_account_debt_entries_witness :
  to_account mixed_account
  = Ok (ADebt (mkDebtAccount "Bank" BANK (Some [to_liability student_loan]) 0)).
Proof.
  exact (proj1 (proj1 (to_account_debt_entries mixed_account _ eq_refl) eq_refl)).
Defined.

(** The documented failures of [get_current_price]: [ValueError] or
    [RuntimeError]. *)
Definition price_lookup_errors (get_current_price : PriceLookup) : Prop :=
  forall t e, get_current_price t = Err e -> e = ValueError \/ e = RuntimeError.

Lemma gtb_lt (a b : Q) : gtb a b = true <-> b < a.
Proof.
  unfold gtb. rewrite negb_true_iff. split.
  - intros H. apply Qnot_le_lt. intros Hle. apply Qle_bool_iff in Hle. congruence.
  - intros H. destruct (Qle_bool a b) eqn:E; [|reflexivity].
    apply Qle_bool_iff in E. destruct (Qlt_not_le _ _ H E).
Qed.

(** C6: with a price lookup failing only as documented, [AssetAccount.buy]
    raises [OutOfCashError] exactly when the amount exceeds the cash balance,
    and then leaves the account (cash and holdings) unchanged. *)
Theorem buy_insufficient_funds (get_current_price : PriceLookup)
  (Hp : price_lookup_errors get_current_price)
  (amt : Q) (holding : Asset) (acc : AssetAccount) :
  (fst (buy get_current_price amt holding acc) = Err OutOfCashError
     <-> aa_cash_amt acc < amt)
  /\ (aa_cash_amt acc < amt -> snd (buy get_current_price amt holding acc) = acc).
Proof.
  unfold buy. split.
  - split.
    + intros H. apply gtb_lt.
      destruct (gtb amt (aa_cash_amt acc)) eqn:G; [reflexivity|exfalso].
      destruct (get_current_price (ticker holding)) as [p|e] eqn:Ep.
      * destruct (is_zero p); [discriminate H|].
        destruct (dict_get _ (aa_holdings acc)) as [cur|].
        -- destruct (asset_add cur _) as [m|e] eqn:Ea; simpl in H; [discriminate H|].
           inversion H; subst. apply asset_add_errors in Ea.
           destruct Ea; discriminate.
        -- discriminate H.
      * simpl in H. inversion H; subst.
        destruct (Hp _ _ Ep); discriminate.
    + intros H. apply gtb_lt in H. rewrite H. reflexivity.
  - intros H. apply gtb_lt in H. rewrite H. reflexivity.
Qed.

Definition price_100 : PriceLookup := fun _ => Ok 100.0.
Definition vti_order : Asset := mkAsset STOCKS "VTI" "VTI" 0.0 None None 0.0.

Lemma buy_insufficient_funds_witness :
  fst (buy price_100 1000.0 vti_order (AssetAccount_init "Vanguard" BROKERAGE))
    = Err OutOfCashError
  /\ snd (buy price_100 1000.0 vti_order (AssetAccount_init "Vanguard" BROKERAGE))
    = AssetAccount_init "Vanguard" BROKERAGE.
Proof.
  assert (Hp : price_lookup_errors price_100) by (intros t e H; discriminate H).
  assert (Hlt : aa_cash_amt (AssetAccount_init "Vanguard" BROKERAGE) < 1000.0)
    by reflexivity.
  destruct (buy_insufficient_funds price_100 Hp 1000.0 vti_order
              (AssetAccount_init "Vanguard" BROKERAGE)) as [[_ H1] H2].
  split; [exact (H1 Hlt) | exact (H2 Hlt)].
Defined.

Lemma sum_holdings_err (get_current_price : PriceLookup) (hs : Holdings) :
  forall t e, sum_holdings get_current_price t hs = Err e ->
  exists k a, In (k, a) hs /\ get_current_price (ticker a) = Err e.
Proof.
  induction hs as [|[k a] rest IH]; intros t e H; simpl in H; [discriminate H|].
  destruct (get_current_price (ticker a)) as [p|e0] eqn:Ep; simpl in H.
  - destruct (IH _ _ H) as [k' [a' [Hin He]]].
    exists k', a'. split; [right; exact Hin | exact He].
  - inversion H; subst. exists k, a. split; [left; reflexivity | exact Ep].
Qed.

Lemma sum_holdings_fail (get_current_price : PriceLookup) (hs : Holdings)
  (k : string) (a : Asset) (e : error) :
  In (k, a) hs -> get_current_price (ticker a) = Err e ->
  forall t, exists e', sum_holdings get_current_price t hs = Err e'.
Proof.
  induction hs as [|[k0 a0] rest IH]; intros Hin He t; simpl in *; [contradiction|].
  destruct Hin as [Heq | Hin].
  - inversion Heq; subst. rewrite He. exists e. reflexivity.
  - destruct (get_current_price (ticker a0)) as [p|e0]; simpl.
    + apply IH; assumption.
    + exists e0. reflexivity.
Qed.

(** C7: if the price lookup fails for a held ticker, [AssetAccount.reconcile]
    raises the lookup error of a held ticker and leaves the account, its
    [total_amount] included, exactly as it was. *)
Theorem AssetAccount_reconcile_price_failure (get_current_price : PriceLookup)
  (acc : AssetAccount) (k : string) (a : Asset) (e : error)
  (Hin : In (k, a) (aa_holdings acc))
  (He : get_current_price (ticker a) = Err e) :
  exists e',
    AssetAccount_reconcile get_current_price acc = (Err e', acc)
    /\ aa_total_amt (snd (AssetAccount_reconcile get_current_price acc)) = aa_total_amt acc
    /\ exists k' a', In (k', a') (aa_holdings acc) /\ get_current_price (ticker a') = Err e'.
Proof.
  destruct (sum_holdings_fail get_current_price (aa_holdings acc) k a e Hin He
              (aa_cash_amt acc)) as [e' He'].
  exists e'. unfold AssetAccount_reconcile. rewrite He'.
  split; [reflexivity | split; [reflexivity|]].
  exact (sum_holdings_err _ _ _ _ He').
Qed.

Definition price_unavailable : PriceLookup := fun _ => Err RuntimeError.

Lemma AssetAccount_reconcile_price_failure_witness :
  exists e', AssetAccount_reconcile price_unavailable test_account = (Err e', test_account).
Proof.
  assert (Hin : In ("TEST"%string, to_asset test_asset_config) (aa_holdings test_account)).
  { rewrite (proj2 (proj2 test_account_shape)). left. reflexivity. }
  destruct (AssetAccount_reconcile_price_failure price_unavailable test_account
              _ _ RuntimeError Hin eq_refl) as [e' [H _]].
  exists e'. exact H.
Defined.

(** C8: constructing a [DebtAccount] with a list of two or more liabilities
    raises [NotImplementedError]; with no list, or a list of zero or one
    liability, it succeeds. *)
Theorem DebtAccount_init_liabilities (inst : string) (ty : AccountType)
  (acc_holdings : option (list Liability)) :
  match acc_holdings with
  | Some l =>
      ((2 <= length l)%nat -> DebtAccount_init inst ty acc_holdings = Err NotImplementedError)
      /\ ((length l <= 1)%nat ->
          DebtAccount_init inst ty acc_holdings = Ok (mkDebtAccount inst ty acc_holdings 0))
  | None => DebtAccount_init inst ty acc_holdings = Ok (mkDebtAccount inst ty None 0)
  end.
Proof.
  destruct acc_holdings as [l|]; simpl; [|reflexivity].
  split; intros H.
  - assert (Nat.ltb 1 (length l) = true) as -> by (apply Nat.ltb_lt; lia).
    reflexivity.
  - assert (Nat.ltb 1 (length l) = false) as -> by (apply Nat.ltb_ge; lia).
    reflexivity.
Qed.

Lemma sum_holdings_ext (p1 p2 : PriceLookup) (hs : Holdings) :
  (forall k a, In (k, a) hs -> p1 (ticker a) = p2 (ticker a)) ->
  forall t, sum_holdings p1 t hs = sum_holdings p2 t hs.
Proof.
  induction hs as [|[k a] rest IH]; intros H t; simpl; [reflexivity|].
  rewrite (H k a (or_introl eq_refl)).
  destruct (p2 (ticker a)); simpl; [|reflexivity].
  apply IH. intros k' a' Hin. exact (H k' a' (or_intror Hin)).
Qed.

(** C9: reconciling twice in a row, with lookups that give the same answer
    for every held ticker, gives the same outcome and the same account as
    reconciling once. *)
Theorem AssetAccount_reconcile_idempotent (p1 p2 : PriceLookup) (acc : AssetAccount)
  (Hstable : forall k a, In (k, a) (aa_holdings acc) -> p1 (ticker a) = p2 (ticker a)) :
  AssetAccount_reconcile p2 (snd (AssetAccount_reconcile p1 acc))
  = AssetAccount_reconcile p1 acc.
Proof.
  unfold AssetAccount_reconcile.
  pose proof (sum_holdings_ext p1 p2 (aa_holdings acc) Hstable (aa_cash_amt acc)) as Hx.
  destruct (sum_holdings p1 (aa_cash_amt acc) (aa_holdings acc)) as [t|e] eqn:E;
    simpl; rewrite <- Hx; reflexivity.
Qed.

Definition price_75_test_only : PriceLookup :=
  fun t => if String.eqb t "TEST" then Ok 75.0 else Err ValueError.

Lemma AssetAccount_reconcile_idempotent_witness :
  AssetAccount_reconcile price_75_test_only (snd (AssetAccount_reconcile price_75 test_account))
  = AssetAccount_reconcile price_75 test_account.
Proof.
  apply AssetAccount_reconcile_idempotent.
  rewrite (proj2 (proj2 test_account_shape)).
  intros k a [H | []]. inversion H; subst. reflexivity.
Defined.

(** Entries carrying negative numbers. *)
Definition short_position : RawAssetConfig :=
  mkRawAssetConfig "stocks" "Short" "SHRT" (-5.0) None None (-0.5).

Definition negative_loan : RawDebtConfig :=
  mkRawDebtConfig "auto-loan" "Negative" (-1.0) (-100.0) (-12)%Z.

(** C10, counterexample: entries with negative shares, expense ratio, apr,
    principal and tenure pass validation and become an [Asset] and a
    [Liability] carrying those negative values. *)
Lemma config_accepts_negative_values :
  (exists c, validate_AssetConfig short_position = Ok c
             /\ shares (to_asset c) < 0 /\ expense_ratio (to_asset c) < 0)
  /\ (exists c, validate_DebtConfig negative_loan = Ok c
             /\ apr (to_liability c) < 0 /\ og_principal (to_liability c) < 0
             /\ (tenure (to_liability c) < 0)%Z).
Proof.
  split; eexists; (split; [reflexivity|]); repeat split; reflexivity.
Qed.

(** C10 (amended): the configuration layer does not enforce the bounds; an
    asset or debt entry with a valid type string always validates, and
    [to_asset] / [to_liability] copy shares, expense ratio, apr, original
    principal and tenure unchanged, whatever their sign. *)
Theorem config_bounds_unchecked (ra : RawAssetConfig) (rd : RawDebtConfig)
  (Ha : parse_AssetType (raw_type_ ra) <> None)
  (Hd : parse_LiabilityType (rawd_type_ rd) <> None) :
  (exists c, validate_AssetConfig ra = Ok c
             /\ shares (to_asset c) = raw_shares ra
             /\ expense_ratio (to_asset c) = raw_expense_ratio ra)
  /\ (exists c, validate_DebtConfig rd = Ok c
             /\ apr (to_liability c) = rawd_apr rd
             /\ og_principal (to_liability c) = rawd_og_principal rd
             /\ tenure (to_liability c) = rawd_tenure rd).
Proof.
  unfold validate_AssetConfig, validate_DebtConfig.
  split.
  - destruct (parse_AssetType (raw_type_ ra)) as [t|]; [|contradiction].
    eexists. split; [reflexivity | split; reflexivity].
  - destruct (parse_LiabilityType (rawd_type_ rd)) as [t|]; [|contradiction].
    eexists. split; [reflexivity | repeat split; reflexivity].
Qed.

Lemma config_bounds_unchecked_witness :
  (exists c, validate_AssetConfig short_position = Ok c
             /\ shares (to_asset c) = -5.0
             /\ expense_ratio (to_asset c) = -0.5)
  /\ (exists c, validate_DebtConfig negative_loan = Ok c
             /\ apr (to_liability c) = -1.0
             /\ og_principal (to_liability c) = -100.0
             /\ tenure (to_liability c) = (-12)%Z).
Proof.
  apply (config_bounds_unchecked short_position negative_loan);
    vm_compute; discriminate.
Defined.

(** ** Further properties of the code *)

(** *** Dictionary of holdings *)


Lemma dict_get_none (k : string) (d : Holdings) :
  dict_get k d = None -> ~ In k (map fst d).
Proof.
  induction d as [|[k' v'] rest IH]; simpl; [auto|].
  destruct (String.eqb k k') eqn:E; [discriminate|].
  intros H [Heq | Hin].
  - subst. rewrite String.eqb_refl in E. discriminate.
  - exact (IH H Hin).
Qed.

Lemma dict_set_new (k : string) (v : Asset) (d : Holdings) :
  dict_get k d = None -> dict_set k v d = d ++ [(k, v)].
Proof.
  induction d as [|[k' v'] rest IH]; simpl; [reflexivity|].
  destruct (String.eqb k k'); [discriminate|].
  intros H. rewrite (IH H). reflexivity.
Qed.



Lemma dict_set_keys_in (k : string) (v : Asset) (d : Holdings) (x : string) :
  In x (map fst (dict_set k v d)) <-> x = k \/ In x (map fst d).
Proof.
  induction d as [|[k' v'] rest IH]; simpl.
  - split; intros [H|H]; try contradiction; left; symmetry; exact H.
  - destruct (String.eqb k k') eqn:E; simpl.
    + apply String.eqb_eq in E. subst.
      split; [intros [H|H]; right; [left|right]; assumption|].
      intros [H|[H|H]]; [left; symmetry; exact H | left; exact H | right; exact H].
    + rewrite IH. tauto.
Qed.

Lemma dict_set_nodup (k : string) (v : Asset) (d : Holdings) :
  NoDup (map fst d) -> NoDup (map fst (dict_set k v d)).
Proof.
  induction d as [|[k' v'] rest IH]; simpl; intros Hn.
  - constructor; [intros []| constructor].
  - inversion Hn as [|x l Hnot Hrest]; subst.
    destruct (String.eqb k k') eqn:E; simpl; [exact Hn|].
    constructor; [|exact (IH Hrest)].
    rewrite dict_set_keys_in. intros [Heq|Hin]; [|contradiction].
    subst. rewrite String.eqb_refl in E. discriminate.
Qed.

(** Every entry is stored under its own asset's ticker. *)
Definition keyed_by_ticker (d : Holdings) : Prop :=
  Forall (fun kv => ticker (snd kv) = fst kv) d.

Lemma dict_set_keyed (k : string) (v : Asset) (d : Holdings) :
  keyed_by_ticker d -> ticker v = k -> keyed_by_ticker (dict_set k v d).
Proof.
  unfold keyed_by_ticker.
  induction d as [|[k' v'] rest IH]; simpl; intros Hd Hv.
  - constructor; [exact Hv | constructor].
  - inversion Hd as [|x l Hx Hrest].
    destruct (String.eqb k k') eqn:E.
    + apply String.eqb_eq in E. constructor; [simpl; rewrite Hv; exact E | exact Hrest].
    + constructor; [exact Hx | exact (IH Hrest Hv)].
Qed.

(** The shape of holdings kept by an [AssetAccount]: one entry per ticker,
    each stored under its asset's ticker. *)
Definition wf_holdings (d : Holdings) : Prop :=
  NoDup (map fst d) /\ keyed_by_ticker d.

(** *** Asset merge *)

Lemma asset_add_ticker (a b m : Asset) :
  asset_add a b = Ok m -> ticker m = ticker b /\ ticker a = ticker b.
Proof.
  unfold asset_add.
  destruct (String.eqb (ticker a) (ticker b)) eqn:E; simpl; [|discriminate].
  apply String.eqb_eq in E.
  destruct (is_zero (shares a)).
  - intros H. inversion H; subst. auto.
  - unfold mul_opt. destruct (cost_basis a), (cost_basis b); simpl; try discriminate.
    destruct (is_zero (shares a + shares b)); [discriminate|].
    intros H. inversion H; subst. simpl. auto.
Qed.

(** Merging assets that are not [==] (different tickers) always raises
    [TypeError], even from a zero-share asset; a successful merge only ever
    combines [==] assets. *)
Theorem asset_add_different_tickers (a b : Asset) :
  (asset_eq a b = false -> asset_add a b = Err TypeError)
  /\ (forall m, asset_add a b = Ok m -> asset_eq a b = true).
Proof.
  unfold asset_eq. split.
  - intros H. unfold asset_add. rewrite H. reflexivity.
  - intros m H. apply asset_add_ticker in H. destruct H as [_ H].
    rewrite H. apply String.eqb_refl.
Qed.

(** Merging into an asset with non-zero shares raises [TypeError] when either
    cost basis is null. *)
Theorem asset_add_null_cost_basis (a b : Asset) (Ht : ticker a = ticker b)
  (Hnz : ~ shares a == 0) (Hnull : cost_basis a = None \/ cost_basis b = None) :
  asset_add a b = Err TypeError.
Proof.
  unfold asset_add. rewrite Ht, String.eqb_refl. simpl.
  rewrite (is_zero_false _ Hnz). unfold mul_opt.
  destruct Hnull as [H|H]; rewrite H; [reflexivity|].
  destruct (cost_basis a); reflexivity.
Qed.

Definition vti_unpriced : Asset := mkAsset STOCKS "VTI" "VTI" 10.0 None None 0.0.

Lemma asset_add_null_cost_basis_witness :
  asset_add vti_unpriced vti_10_at_5 = Err TypeError.
Proof.
  apply asset_add_null_cost_basis; [reflexivity | vm_compute; discriminate | left; reflexivity].
Defined.

(** *** Buying *)

Lemma gtb_false (a b : Q) : a <= b -> gtb a b = false.
Proof.
  intros H. unfold gtb. apply Qle_bool_iff in H. rewrite H. reflexivity.
Qed.

Lemma gtb_false_le (a b : Q) : gtb a b = false -> a <= b.
Proof.
  unfold gtb. intros H. apply Qle_bool_iff. destruct (Qle_bool a b); auto.
Qed.

(** The purchased lot as [buy] records it. *)
Definition bought_lot (holding : Asset) (amt p : Q) : Asset :=
  set_shares_cost holding (amt / p) (Some p).

Lemma buy_ok_cases (get_current_price : PriceLookup) (amt : Q) (holding : Asset)
  (acc : AssetAccount) (c : Q) :
  fst (buy get_current_price amt holding acc) = Ok c ->
  exists p hs,
    amt <= aa_cash_amt acc /\ get_current_price (ticker holding) = Ok p /\ ~ p == 0
    /\ c = aa_cash_amt acc - amt
    /\ snd (buy get_current_price amt holding acc) = with_holdings_cash acc hs c
    /\ ((dict_get (ticker holding) (aa_holdings acc) = None
         /\ hs = dict_set (ticker holding) (bought_lot holding amt p) (aa_holdings acc))
        \/ (exists cur m, dict_get (ticker holding) (aa_holdings acc) = Some cur
            /\ asset_add cur (bought_lot holding amt p) = Ok m
            /\ hs = dict_set (ticker holding) m (aa_holdings acc))).
Proof.
  unfold buy, bought_lot.
  destruct (gtb amt (aa_cash_amt acc)) eqn:G; [discriminate|].
  destruct (get_current_price (ticker holding)) as [p|e] eqn:Ep; [|discriminate].
  destruct (is_zero p) eqn:Z; [discriminate|].
  assert (Hnz : ~ p == 0).
  { intros H. apply Qeq_bool_iff in H. unfold is_zero in Z. congruence. }
  simpl.
  destruct (dict_get (ticker holding) (aa_holdings acc)) as [cur|] eqn:Eg.
  - destruct (asset_add cur (set_shares_cost holding (amt / p) (Some p))) as [m|e] eqn:Ea;
      simpl; [|discriminate].
    intros H. inversion H; subst.
    exists p, (dict_set (ticker holding) m (aa_holdings acc)).
    repeat split; auto using gtb_false_le.
    right. exists cur, m. auto.
  - simpl. intros H. inversion H; subst.
    exists p, (dict_set (ticker holding) (set_shares_cost holding (amt / p) (Some p))
                 (aa_holdings acc)).
    repeat split; auto using gtb_false_le.
Qed.

(** [buy] is all-or-nothing on the account: whenever it raises, whatever the
    error, cash, holdings and total are exactly as before. *)
Theorem buy_failure_leaves_account (get_current_price : PriceLookup) (amt : Q)
  (holding : Asset) (acc : AssetAccount) (e : error)
  (Hfail : fst (buy get_current_price amt holding acc) = Err e) :
  snd (buy get_current_price amt holding acc) = acc.
Proof.
  revert Hfail. unfold buy.
  destruct (gtb amt (aa_cash_amt acc)); [reflexivity|].
  destruct (get_current_price (ticker holding)) as [p|e0]; [|reflexivity].
  destruct (is_zero p); [reflexivity|]. simpl.
  destruct (dict_get (ticker holding) (aa_holdings acc)) as [cur|].
  - destruct (asset_add cur _); simpl; [discriminate | reflexivity].
  - simpl. discriminate.
Qed.

(** An account holding VTI with no recorded cost basis. *)
Definition unpriced_account : AssetAccount :=
  mkAssetAccount "Vanguard" BROKERAGE [("VTI"%string, vti_unpriced)] 1000.0 0.

Lemma buy_failure_leaves_account_witness :
  snd (buy price_100 500.0 vti_order unpriced_account) = unpriced_account.
Proof. apply (buy_failure_leaves_account _ _ _ _ TypeError). reflexivity. Defined.

(** Buying a ticker not yet held, with enough cash and a non-zero price [p]:
    the lot [amt / p] shares at cost basis [p] is appended to the holdings,
    cash drops by [amt], and the new cash balance is returned. *)
Theorem buy_new_ticker (get_current_price : PriceLookup) (amt p : Q)
  (holding : Asset) (acc : AssetAccount)
  (Hle : amt <= aa_cash_amt acc)
  (Hp : get_current_price (ticker holding) = Ok p) (Hnz : ~ p == 0)
  (Hnew : dict_get (ticker holding) (aa_holdings acc) = None) :
  buy get_current_price amt holding acc
  = (Ok (aa_cash_amt acc - amt),
     with_holdings_cash acc
       (aa_holdings acc ++ [(ticker holding, bought_lot holding amt p)])
       (aa_cash_amt acc - amt)).
Proof.
  unfold buy. rewrite (gtb_false _ _ Hle), Hp, (is_zero_false _ Hnz). simpl.
  rewrite Hnew, dict_set_new by exact Hnew. reflexivity.
Qed.

Definition cash_only_account : AssetAccount :=
  mkAssetAccount "Vanguard" BROKERAGE [] 1000.0 0.

Lemma buy_new_ticker_witness :
  buy price_100 500.0 vti_order cash_only_account
  = (Ok (1000.0 - 500.0),
     with_holdings_cash cash_only_account
       [("VTI"%string, bought_lot vti_order 500.0 100.0)] (1000.0 - 500.0)).
Proof.
  apply (buy_new_ticker price_100 500.0 100.0 vti_order cash_only_account);
    [vm_compute; discriminate | reflexivity
                        | vm_compute; discriminate | reflexivity].
Defined.


Definition test_order : Asset := mkAsset STOCKS "Test Stock" "TEST" 0.0 None None 0.0.




(** [buy] keeps the holdings well formed: if every ticker occurs once and
    each asset is stored under its own ticker before, the same holds after,
    whether the purchase succeeds or raises. *)
Theorem buy_preserves_wf_holdings (get_current_price : PriceLookup) (amt : Q)
  (holding : Asset) (acc : AssetAccount)
  (Hwf : wf_holdings (aa_holdings acc)) :
  wf_holdings (aa_holdings (snd (buy get_current_price amt holding acc))).
Proof.
  destruct (fst (buy get_current_price amt holding acc)) as [c|e] eqn:E.
  - destruct (buy_ok_cases _ _ _ _ _ E)
      as [p [hs [_ [_ [_ [_ [Hsnd Hcases]]]]]]].
    rewrite Hsnd. simpl. destruct Hwf as [Hnd Hk].
    destruct Hcases as [[_ Hhs] | [cur [m [_ [Ha Hhs]]]]]; subst hs; split.
    + apply dict_set_nodup. exact Hnd.
    + apply dict_set_keyed; [exact Hk | reflexivity].
    + apply dict_set_nodup. exact Hnd.
    + apply dict_set_keyed; [exact Hk|].
      apply asset_add_ticker in Ha. destruct Ha as [Ha _]. exact Ha.
  - rewrite (buy_failure_leaves_account _ _ _ _ _ E). exact Hwf.
Qed.

Lemma buy_preserves_wf_holdings_witness :
  wf_holdings (aa_holdings (snd (buy price_75 750.0 test_order test_account))).
Proof.
  apply buy_preserves_wf_holdings.
  rewrite (proj2 (proj2 test_account_shape)).
  split; repeat constructor. intros [].
Defined.







(** *** Transfers *)


(** *** Building an asset account from its configuration *)

(** The asset built from the last asset entry with ticker [k], if any. *)
Fixpoint last_asset (k : string) (l : list HoldingConfig) : option Asset :=
  match l with
  | [] => None
  | HAsset a :: rest =>
      match last_asset k rest with
      | Some x => Some x
      | None => if String.eqb (ac_ticker a) k then Some (to_asset a) else None
      end
  | HDebt _ :: rest => last_asset k rest
  end.

Lemma dict_get_set (k t : string) (v : Asset) (d : Holdings) :
  dict_get k (dict_set t v d) = if String.eqb k t then Some v else dict_get k d.
Proof.
  induction d as [|[k' v'] rest IH]; simpl.
  - destruct (String.eqb k t); reflexivity.
  - destruct (String.eqb t k') eqn:E; simpl.
    + apply String.eqb_eq in E. subst. destruct (String.eqb k k'); reflexivity.
    + destruct (String.eqb k k') eqn:E2; [|exact IH].
      apply String.eqb_eq in E2. subst.
      rewrite String.eqb_sym, E. reflexivity.
Qed.

Lemma add_asset_holdings_get (l : list HoldingConfig) :
  forall h k, dict_get k (add_asset_holdings l h)
              = match last_asset k l with Some x => Some x | None => dict_get k h end.
Proof.
  induction l as [|[a|d] rest IH]; intros h k; simpl; [reflexivity| |apply IH].
  rewrite IH, dict_get_set. simpl.
  destruct (last_asset k rest); [reflexivity|].
  rewrite String.eqb_sym. destruct (String.eqb (ac_ticker a) k); reflexivity.
Qed.

Lemma add_asset_holdings_wf (l : list HoldingConfig) :
  forall h, wf_holdings h -> wf_holdings (add_asset_holdings l h).
Proof.
  induction l as [|[a|d] rest IH]; intros h [Hnd Hk]; simpl.
  - split; assumption.
  - apply IH. split; [apply dict_set_nodup; exact Hnd | apply dict_set_keyed; auto].
  - apply IH. split; assumption.
Qed.

Lemma add_asset_holdings_none (l : list HoldingConfig) :
  existsb is_asset_config l = false -> forall h, add_asset_holdings l h = h.
Proof.
  induction l as [|[a|d] rest IH]; simpl; intros H h; [reflexivity|discriminate|].
  apply IH. exact H.
Qed.

(** An account entry without debt entries becomes an [AssetAccount] with
    total 0, cash equal to the configured cash when positive and 0 otherwise
    (a negative or zero configured cash is dropped), and one holding per
    ticker: the asset of the last entry with that ticker, stored under it. *)
Theorem to_account_asset_entries (cfg : AccountConfig)
  (Hnodebt : any_holding is_debt_config (acc_holdings cfg) = false) :
  exists acc,
    to_account cfg = Ok (AAsset acc)
    /\ aa_total_amt acc = 0
    /\ aa_cash_amt acc == (if gtb (cash cfg) 0 then cash cfg else 0)
    /\ wf_holdings (aa_holdings acc)
    /\ (forall k, dict_get k (aa_holdings acc)
                  = last_asset k (match acc_holdings cfg with Some l => l | None => [] end)).
Proof.
  set (l := match acc_holdings cfg with Some l => l | None => [] end).
  set (acc0 := if gtb (cash cfg) 0
               then snd (transfer_in (cash cfg) (AssetAccount_init (institution cfg) (acc_type cfg)))
               else AssetAccount_init (institution cfg) (acc_type cfg)).
  exists (with_holdings_cash acc0 (add_asset_holdings l []) (aa_cash_amt acc0)).
  assert (Hto : to_account cfg
                = Ok (AAsset (with_holdings_cash acc0 (add_asset_holdings l []) (aa_cash_amt acc0)))).
  { unfold to_account. rewrite Hnodebt. fold acc0.
    assert (Hh : aa_holdings acc0 = []) by (unfold acc0; destruct (gtb (cash cfg) 0); reflexivity).
    destruct (any_holding is_asset_config (acc_holdings cfg)) eqn:Ea.
    - rewrite Hh. reflexivity.
    - unfold any_holding in Ea. fold l.
      assert (El : existsb is_asset_config l = false)
        by (unfold l; destruct (acc_holdings cfg); [exact Ea | reflexivity]).
      rewrite (add_asset_holdings_none l El).
      destruct acc0 as [i t hs c tot]. simpl in Hh. subst hs. reflexivity. }
  split; [exact Hto|]. split; [|split; [|split]].
  - unfold acc0. destruct (gtb (cash cfg) 0); reflexivity.
  - simpl. unfold acc0. destruct (gtb (cash cfg) 0); simpl; [ring | reflexivity].
  - apply add_asset_holdings_wf. split; constructor.
  - intros k. simpl. rewrite add_asset_holdings_get.
    destruct (last_asset k l); reflexivity.
Qed.

(** An account entry with cash -500 and two lots of the same ticker. *)
Definition duplicate_lots_account : AccountConfig :=
  mkAccountConfig "Broker" BROKERAGE
    (Some [HAsset test_asset_config;
           HAsset (mkAssetConfig STOCKS "Test Stock" "TEST" 7.0 None None 0.0)])
    (-500.0).

Lemma to_account_asset_entries_witness :
  exists acc,
    to_account duplicate_lots_account = Ok (AAsset acc)
    /\ aa_total_amt acc = 0
    /\ aa_cash_amt acc == 0
    /\ wf_holdings (aa_holdings acc)
    /\ (forall k, dict_get k (aa_holdings acc)
                  = last_asset k (match acc_holdings duplicate_lots_account with
                                  | Some l => l | None => [] end)).
Proof. apply to_account_asset_entries. reflexivity. Defined.

(** *** Net worth *)

Lemma to_account_errors (cfg : AccountConfig) (e : error) :
  to_account cfg = Err e -> e = NotImplementedError.
Proof.
  unfold to_account.
  destruct (any_holding is_debt_config (acc_holdings cfg)); [|discriminate].
  unfold DebtAccount_init.
  destruct (Nat.ltb 1 _); simpl; intros H; inversion H; reflexivity.
Qed.

Lemma to_account_many_debts (cfg : AccountConfig) (l : list HoldingConfig) :
  acc_holdings cfg = Some l -> (2 <= length (debt_holdings l))%nat ->
  to_account cfg = Err NotImplementedError.
Proof.
  intros Hl H2. unfold to_account. rewrite Hl. simpl.
  rewrite existsb_debt by (intros E; rewrite E in H2; simpl in H2; lia).
  simpl. assert (Nat.ltb 1 (length (debt_holdings l)) = true) as -> by (apply Nat.ltb_lt; lia).
  reflexivity.
Qed.

Lemma map_result_err {A B} (f : A -> result B) (l : list A) (x : A) (e : error) :
  In x l -> f x = Err e -> exists e', map_result f l = Err e' /\ exists y, In y l /\ f y = Err e'.
Proof.
  induction l as [|a rest IH]; simpl; [contradiction|].
  intros [Hx|Hin] Hf.
  - subst. rewrite Hf. exists e. split; [reflexivity|]. exists x. auto.
  - destruct (f a) as [b|e0] eqn:Ea; simpl.
    + destruct (IH Hin Hf) as [e' [H [y [Hy Hfy]]]]. rewrite H.
      exists e'. split; [reflexivity|]. exists y. auto.
    + exists e0. split; [reflexivity|]. exists a. auto.
Qed.

(** One account entry with two or more debt entries anywhere in the
    portfolio makes [compute_networth] raise [NotImplementedError], before
    any account is reconciled and whatever the price source. *)
Theorem compute_networth_multi_loan_entry (get_current_price : PriceLookup)
  (cfgs : list AccountConfig) (cfg : AccountConfig) (l : list HoldingConfig)
  (Hin : In cfg cfgs) (Hl : acc_holdings cfg = Some l)
  (H2 : (2 <= length (debt_holdings l))%nat) :
  NetworthCalculator_init cfgs = Err NotImplementedError
  /\ compute_networth get_current_price cfgs = Err NotImplementedError.
Proof.
  destruct (map_result_err to_account cfgs cfg NotImplementedError Hin
              (to_account_many_debts cfg l Hl H2)) as [e' [H [y [_ Hy]]]].
  apply to_account_errors in Hy. subst e'.
  unfold compute_networth, NetworthCalculator_init. rewrite H. auto.
Qed.

Lemma compute_networth_multi_loan_entry_witness :
  compute_networth price_75 [test_account_config; two_loans_account]
  = Err NotImplementedError.
Proof.
  apply (compute_networth_multi_loan_entry price_75 _ two_loans_account
           [HDebt student_loan; HDebt car_loan]).
  - right. left. reflexivity.
  - reflexivity.
  - simpl. lia.
Defined.

Lemma reconcile_err_state (get_current_price : PriceLookup) (a : Account) (e : error) :
  fst (reconcile get_current_price a) = Err e -> snd (reconcile get_current_price a) = a.
Proof.
  destruct a as [x|d]; simpl.
  - unfold AssetAccount_reconcile.
    destruct (sum_holdings get_current_price (aa_cash_amt x) (aa_holdings x)); simpl;
      [discriminate | reflexivity].
  - discriminate.
Qed.

Lemma calc_loop_prefix (get_current_price : PriceLookup) (pre : list Account) :
  forall pre' nw rest,
    reconcile_all get_current_price pre = Ok pre' ->
    exists nw',
      nw' == nw + (sum_q (asset_totals pre') - sum_q (debt_totals pre'))
      /\ calc_loop get_current_price nw (pre ++ rest)
         = let '(r, x, rs) := calc_loop get_current_price nw' rest in (r, x, pre' ++ rs).
Proof.
  induction pre as [|a pre IH]; intros pre' nw rest H; simpl in H.
  - inversion H; subst. exists nw. split; [simpl; ring|].
    simpl. destruct (calc_loop get_current_price nw rest) as [[r x] rs]. reflexivity.
  - destruct (reconcile get_current_price a) as [[t|e] a'] eqn:Er; [|discriminate].
    destruct (reconcile_all get_current_price pre) as [rs|e] eqn:Ea; simpl in H; [|discriminate].
    inversion H; subst.
    set (nw1 := match a' with
                | AAsset _ => nw + total_amount a'
                | ADebt _ => nw - total_amount a'
                end).
    destruct (IH rs nw1 rest eq_refl) as [nw' [Heq Hc]].
    exists nw'. split.
    + rewrite Heq. subst nw1. destruct a'; simpl; ring.
    + simpl. rewrite Er. fold nw1. rewrite Hc.
      destruct (calc_loop get_current_price nw' rest) as [[r x] rs']. reflexivity.
Qed.

(** When reconciling an account fails, [calculate_networth] raises that
    error; the accounts before it stay reconciled, the failing account and
    every later one are left untouched, and [networth] keeps the partial sum
    over the accounts before it. *)
Theorem calculate_networth_failure (get_current_price : PriceLookup)
  (pre pre' post : list Account) (a : Account) (e : error)
  (Hpre : reconcile_all get_current_price pre = Ok pre')
  (Ha : fst (reconcile get_current_price a) = Err e) :
  exists nw,
    calculate_networth get_current_price (pre ++ a :: post) = (Err e, nw, pre' ++ a :: post)
    /\ nw == sum_q (asset_totals pre') - sum_q (debt_totals pre').
Proof.
  destruct (calc_loop_prefix get_current_price pre pre' 0 (a :: post) Hpre) as [nw [Heq Hc]].
  exists nw. split.
  - unfold calculate_networth. rewrite Hc. simpl.
    pose proof (reconcile_err_state _ _ _ Ha) as Hs.
    destruct (reconcile get_current_price a) as [r a'] eqn:Er. simpl in Ha, Hs. subst.
    reflexivity.
  - rewrite Heq. ring.
Qed.

Definition mortgage_account : Account :=
  ADebt (mkDebtAccount "Bank" BANK (Some [to_liability car_loan]) 0).

Lemma calculate_networth_failure_witness :
  exists nw,
    calculate_networth price_unavailable ([mortgage_account] ++ AAsset test_account :: [])
    = (Err RuntimeError, nw,
       [ADebt (mkDebtAccount "Bank" BANK (Some [to_liability car_loan]) (0 + 25000.0))]
       ++ AAsset test_account :: [])
    /\ nw == sum_q (asset_totals
                      [ADebt (mkDebtAccount "Bank" BANK (Some [to_liability car_loan])
                                (0 + 25000.0))])
            - sum_q (debt_totals
                      [ADebt (mkDebtAccount "Bank" BANK (Some [to_liability car_loan])
                                (0 + 25000.0))]).
Proof.
  apply calculate_networth_failure; reflexivity.
Defined.

Lemma reconcile_twice (get_current_price : PriceLookup) (a : Account) :
  reconcile get_current_price (snd (reconcile get_current_price a))
  = reconcile get_current_price a.
Proof.
  destruct a as [x|d]; simpl.
  - unfold AssetAccount_reconcile.
    destruct (sum_holdings get_current_price (aa_cash_amt x) (aa_holdings x)) eqn:E;
      simpl; unfold AssetAccount_reconcile; simpl; rewrite E; reflexivity.
  - reflexivity.
Qed.

(** Running [calculate_networth] again on the accounts it left behind, with
    the same price source, gives the same outcome, [networth] and accounts,
    after a success as well as after a failure. *)
Theorem calculate_networth_rerun (get_current_price : PriceLookup) (accs : list Account) :
  calculate_networth get_current_price
    (snd (calculate_networth get_current_price accs))
  = calculate_networth get_current_price accs.
Proof.
  unfold calculate_networth. generalize 0 as nw.
  induction accs as [|a rest IH]; intros nw; simpl; [reflexivity|].
  destruct (reconcile get_current_price a) as [r a'] eqn:Er.
  pose proof (reconcile_twice get_current_price a) as Ht. rewrite Er in Ht. simpl in Ht.
  destruct r as [t|e].
  - specialize (IH (match a' with
                    | AAsset _ => nw + total_amount a'
                    | ADebt _ => nw - total_amount a'
                    end)).
    destruct (calc_loop get_current_price _ rest) as [[r' x] rest'] eqn:Ec.
    simpl in *. rewrite Ht, IH. reflexivity.
  - simpl. rewrite Ht. reflexivity.
Qed.
